(** * pyxir: backend registry and opaque-function dispatch

    A shallow embedding of

    - [include/pyxir/runtime/runtime_module_factory.hpp]
      (class [RuntimeModuleFactory]),
    - [src/pyxir/frontend/onnx.cpp] (the two [import_onnx_model] overloads),
    - [src/pyxir/runtime/backends/vai_rt/vai_compute_func.hpp]
      (class [VaiComputeFunc]),

    followed by the properties of the registry and dispatch contract.

    Conventions.  A [std::unique_ptr<T>] is an [option T] ([None] is the null
    holder): ownership is exclusive, so the owned object is a value.  Objects
    that are shared or referred to by reference (the factories held by the
    manager, the graphs behind a [std::shared_ptr]) live in a store indexed by
    addresses.  Process-wide registries are explicit state, threaded by the
    monad [M]; a C++ exception is an [Err] result. *)

From stdpp Require Import base option gmap sets list strings.

Local Open Scope string_scope.
Local Open Scope list_scope.

(** ** Exceptions and the state-and-exception monad *)

(** The failures of the error taxonomy.  [runtime_error] is
    [std::runtime_error] with its [what()] string; [NullDereference] stands
    for a call through a null holder. *)
Inductive error : Type :=
| UnknownRuntime (runtime : string)
| NotFound (key : string)
| ArityMismatch
| InvocationError (what : string)
| ConstructionFailure (what : string)
| runtime_error (what : string)
| NullDereference.

Inductive result (A : Type) : Type :=
| Ok (a : A)
| Err (e : error).
Arguments Ok {A} a.
Arguments Err {A} e.

(** A computation over a state [S] that returns normally or throws. The
    state reached is kept in both cases: what a callee did before it threw
    is not rolled back. *)
Definition M (S A : Type) : Type := S → result A * S.

Global Instance M_ret {S} : MRet (M S) := λ A a s, (Ok a, s).
Global Instance M_bind {S} : MBind (M S) := λ A B k c s,
  match c s with
  | (Ok a, s') => k a s'
  | (Err e, s') => (Err e, s')
  end.

Definition throw {S A} (e : error) : M S A := λ s, (Err e, s).
Definition gets {S A} (f : S → A) : M S A := λ s, (Ok (f s), s).
Definition modify {S} (f : S → S) : M S unit := λ s, (Ok (), f s).

(** Addresses of heap objects. *)
Definition addr := positive.

(** ** [pyxir::runtime]: the runtime module factory *)
Module Runtime.
Section runtime.

(** What the dispatch boundary treats as opaque: the graph handle
    ([std::shared_ptr<graph::XGraph>]), the run options, the runtime module
    a backend builds, the compute-function builder of a backend, and the
    part of the process a backend's constructor may read and write. *)
Context {XGraphHolder RunOptions RtModHolder ComputeFuncFactoryImpl World : Type}.

(** [RunOptionsHolder]: a nullable shared pointer; [nullptr] is [None]. *)
Definition RunOptionsHolder : Type := option RunOptions.
Definition nullptr {A} : option A := None.

(** Modelled from the spec: [RuntimeModuleFactoryImpl]
    (runtime_module_factory_impl.hpp is not among the sources). "A
    polymorphic capability [...]; knows how to construct a runtime module
    given (graph, target, input-tensor-names, output-tensor-names,
    run-options)."  The virtual method is a field; it may act on the world
    and may throw. *)
Record RuntimeModuleFactoryImpl : Type := {
  get_runtime_module :
    XGraphHolder → string → list string → list string → RunOptionsHolder →
    M World RtModHolder
}.

Definition RuntimeModuleFactoryImplHolder : Type :=
  option RuntimeModuleFactoryImpl.

(** [class RuntimeModuleFactory]: the private members [runtime_] and
    [impl_]. *)
Record RuntimeModuleFactory : Type := {
  runtime_ : string;
  impl_ : RuntimeModuleFactoryImplHolder
}.

(** [RuntimeModuleFactory(const std::string &runtime) : runtime_(runtime) {}]
    — [impl_] is default-initialised, a null holder. *)
Definition new_RuntimeModuleFactory (runtime : string) : RuntimeModuleFactory :=
  {| runtime_ := runtime; impl_ := nullptr |}.

(** [set_impl(RuntimeModuleFactoryImplHolder &impl)]:
    [impl_ = std::move(impl); return *this;].  The caller's holder is an
    lvalue and is left null by the move, so it is returned as well. *)
Definition set_impl_ref (this : RuntimeModuleFactory)
    (impl : RuntimeModuleFactoryImplHolder)
    : RuntimeModuleFactory * RuntimeModuleFactoryImplHolder :=
  ({| runtime_ := runtime_ this; impl_ := impl |}, nullptr).

(** [set_impl(RuntimeModuleFactoryImplHolder impl)]:
    [impl_ = std::move(impl); return *this;]. *)
Definition set_impl (this : RuntimeModuleFactory)
    (impl : RuntimeModuleFactoryImplHolder) : RuntimeModuleFactory :=
  {| runtime_ := runtime_ this; impl_ := impl |}.

(** [set_impl(RuntimeModuleFactoryImpl *impl)]:
    [impl_ = RuntimeModuleFactoryImplHolder(impl); return *this;].  A raw
    pointer is nullable too; wrapping it in a holder keeps the pointee. *)
Definition set_impl_ptr (this : RuntimeModuleFactory)
    (impl : option RuntimeModuleFactoryImpl) : RuntimeModuleFactory :=
  {| runtime_ := runtime_ this; impl_ := impl |}.

(** [get_impl() { return impl_; }] *)
Definition get_impl (this : RuntimeModuleFactory)
    : RuntimeModuleFactoryImplHolder :=
  impl_ this.

(** The three overloads of [set_impl], as one call. *)
Inductive set_impl_overload : Type :=
| by_holder_ref
| by_holder
| by_pointer.

Definition set_impl_via (o : set_impl_overload) (this : RuntimeModuleFactory)
    (impl : option RuntimeModuleFactoryImpl) : RuntimeModuleFactory :=
  match o with
  | by_holder_ref => fst (set_impl_ref this impl)
  | by_holder => set_impl this impl
  | by_pointer => set_impl_ptr this impl
  end.

(** *** Process-wide state

    The registries are process-wide singletons.  [factories_] is the
    manager's map from a runtime name to the factory it owns, [objects] the
    factory objects themselves, so that a [RuntimeModuleFactory &] is an
    address and two references can be compared; [compute_factories_] is
    the registry of the compute function factory, and [world] what
    backends act on. *)
Record Process : Type := {
  factories_ : gmap string addr;
  objects : gmap addr RuntimeModuleFactory;
  compute_factories_ : gmap string (option ComputeFuncFactoryImpl);
  world : World
}.

Definition start (w : World) : Process :=
  {| factories_ := ∅; objects := ∅; compute_factories_ := ∅; world := w |}.

(** Reading through a reference. *)
Definition deref (a : addr) : M Process RuntimeModuleFactory := λ p,
  match objects p !! a with
  | Some f => (Ok f, p)
  | None => (Err NullDereference, p)
  end.

(** A method that updates the object behind [this] and returns [*this]. *)
Definition update (this : addr)
    (method : RuntimeModuleFactory → RuntimeModuleFactory) : M Process addr :=
  f ← deref this;
  _ ← modify (λ p, {| factories_ := factories_ p;
                      objects := <[this := method f]> (objects p);
                      compute_factories_ := compute_factories_ p;
                      world := world p |});
  mret this.

(** A callee that only acts on the world. *)
Definition in_world {A} (c : M World A) : M Process A := λ p,
  let '(r, w) := c (world p) in
  (r, {| factories_ := factories_ p; objects := objects p;
         compute_factories_ := compute_factories_ p; world := w |}).

(** [factory.set_impl(impl)] through a reference, by any overload.  The
    holder or pointer passed is the caller's own — a temporary, a local
    holder, a pointer to a new object — so what the move leaves of it is no
    part of the process.  For the holder of another factory, see
    [set_impl_ref_at]. *)
Definition set_impl_at (o : set_impl_overload) (this : addr)
    (impl : option RuntimeModuleFactoryImpl) : M Process addr :=
  update this (λ f, set_impl_via o f impl).

(** [factory.get_impl()] through a reference. *)
Definition get_impl_at (this : addr) : M Process RuntimeModuleFactoryImplHolder :=
  f ← deref this; mret (get_impl f).

(** [factory.set_impl(other.get_impl())] by the overload taking
    [RuntimeModuleFactoryImplHolder &]: [get_impl] returns a mutable
    reference to [other]'s [impl_], and that member is the holder the
    parameter refers to.  [impl_ = std::move(impl)] takes the pointer out of
    the referenced holder, which is left null, and then stores it: first
    [other]'s [impl_] becomes the moved-from holder, then [this] gets what
    [other] held.  With [other] the factory itself, the second write puts
    back what the first took out. *)
Definition set_impl_ref_at (this other : addr) : M Process addr :=
  g ← deref other;
  f ← deref this;
  let moved := (set_impl_ref f (get_impl g)).2 in
  _ ← update other (λ g', {| runtime_ := runtime_ g'; impl_ := moved |});
  update this (λ f', (set_impl_ref f' (get_impl g)).1).

(** *** The compute function factory *)

(** Modelled from the spec: [ComputeFuncFactory::RegisterImpl]
    (compute_func_factory.hpp is not among the sources): "get-or-create the
    per-runtime slot, returning a handle on which [set_impl] is called to
    install the concrete builder.  Idempotent with respect to slot
    creation".  The registry maps a runtime name to the slot's builder,
    null as long as none is installed; the handle of a slot is its name. *)
Definition ComputeFuncFactory_RegisterImpl (runtime : string)
    : M Process string :=
  found ← gets (λ p, compute_factories_ p !! runtime);
  match found with
  | Some _ => mret runtime
  | None =>
      _ ← modify (λ p, {| factories_ := factories_ p; objects := objects p;
                          compute_factories_ :=
                            <[runtime := nullptr]> (compute_factories_ p);
                          world := world p |});
      mret runtime
  end.

(** Modelled from the spec: [ComputeFuncFactory::set_impl] on a slot:
    "installing a new impl supersedes the previous one for that
    runtime". *)
Definition ComputeFuncFactory_set_impl (slot : string)
    (impl : option ComputeFuncFactoryImpl) : M Process string :=
  _ ← modify (λ p, {| factories_ := factories_ p; objects := objects p;
                      compute_factories_ :=
                        <[slot := impl]> (compute_factories_ p);
                      world := world p |});
  mret slot.

(** [set_compute_impl(ComputeFuncFactoryImpl *compute_impl)]:
<<
    ComputeFuncFactory::RegisterImpl(runtime_).set_impl(compute_impl);
    return *this;
>> *)
Definition set_compute_impl (this : addr)
    (compute_impl : option ComputeFuncFactoryImpl) : M Process addr :=
  f ← deref this;
  slot ← ComputeFuncFactory_RegisterImpl (runtime_ f);
  _ ← ComputeFuncFactory_set_impl slot compute_impl;
  mret this.

(** *** The manager and the static entry points *)

(** Modelled from the spec: [RuntimeModuleFactory::Manager::GetFactory]
    (the manager is only forward-declared in the header): "get-or-create:
    if no entry exists, creates a new factory (with no impl yet) and
    inserts it; always returns a reference usable to install or re-install
    an impl".  A new factory is allocated at an address no object
    occupies. *)
Definition GetFactory (runtime : string) : M Process addr :=
  found ← gets (λ p, factories_ p !! runtime);
  match found with
  | Some a => mret a
  | None =>
      a ← gets (λ p, fresh (dom (objects p)));
      _ ← modify (λ p, {| factories_ := <[runtime := a]> (factories_ p);
                          objects :=
                            <[a := new_RuntimeModuleFactory runtime]> (objects p);
                          compute_factories_ := compute_factories_ p;
                          world := world p |});
      mret a
  end.

(** Modelled from the spec: [Manager::Exists]: "true iff an entry exists
    in the map". *)
Definition Exists (runtime : string) : M Process bool :=
  gets (λ p, bool_decide (is_Some (factories_ p !! runtime))).

(** Modelled from the spec: [RuntimeModuleFactory::RegisterImpl] (declared
    in the header, defined elsewhere): "get-or-create (via the Manager)
    the factory object for [runtimeName]; returns a mutable reference". *)
Definition RegisterImpl (runtime : string) : M Process addr :=
  GetFactory runtime.

(** Modelled from the spec: [RuntimeModuleFactory::GetRuntimeModule]
    (declared in the header, defined elsewhere): "Looks up the factory for
    [runtimeName] (fails with [UnknownRuntime] if absent), then delegates
    to its installed impl to construct a runtime module bound to the given
    graph, target, and input/output tensor-name orderings, threading
    [runOptions] through unmodified."  Calling through a null [impl_] is
    [NullDereference]. *)
Definition GetRuntimeModule (xg : XGraphHolder) (target : string)
    (in_tensor_names out_tensor_names : list string) (runtime : string)
    (run_options : RunOptionsHolder) : M Process RtModHolder :=
  found ← gets (λ p, factories_ p !! runtime);
  match found with
  | None => throw (UnknownRuntime runtime)
  | Some a =>
      f ← deref a;
      match get_impl f with
      | None => throw NullDereference
      | Some impl =>
          in_world (get_runtime_module impl xg target in_tensor_names
                      out_tensor_names run_options)
      end
  end.

(** The declaration's default argument,
    [RunOptionsHolder const &run_options = nullptr]: the call with
    [run_options] left out. *)
Definition GetRuntimeModule_default (xg : XGraphHolder) (target : string)
    (in_tensor_names out_tensor_names : list string) (runtime : string)
    : M Process RtModHolder :=
  GetRuntimeModule xg target in_tensor_names out_tensor_names runtime nullptr.

(** *** Runs of the process

    One call of the registry's interface.  A factory reference is only
    ever obtained from the manager, so [set_impl] and [set_compute_impl]
    are called on an address the manager holds. *)
Inductive step : Process → Process → Prop :=
| step_RegisterImpl runtime p :
    step p (RegisterImpl runtime p).2
| step_set_impl o runtime a impl p :
    factories_ p !! runtime = Some a →
    step p (set_impl_at o a impl p).2
| step_set_impl_ref runtime runtime' a b p :
    factories_ p !! runtime = Some a →
    factories_ p !! runtime' = Some b →
    step p (set_impl_ref_at a b p).2
| step_set_compute_impl runtime a compute_impl p :
    factories_ p !! runtime = Some a →
    step p (set_compute_impl a compute_impl p).2
| step_GetRuntimeModule xg target ins outs runtime run_options p :
    step p (GetRuntimeModule xg target ins outs runtime run_options p).2
| step_Exists runtime p :
    step p (Exists runtime p).2.

(** The states of a process that started with empty registries. *)
Definition reachable (p : Process) : Prop := ∃ w, rtc step (start w) p.

(** The manager's map and the factory objects describe each other: every
    entry points to a factory created for that name, and every factory
    object is the one entered under its name. *)
Definition consistent (p : Process) : Prop :=
  (∀ runtime a, factories_ p !! runtime = Some a →
     ∃ f, objects p !! a = Some f ∧ runtime_ f = runtime) ∧
  (∀ a f, objects p !! a = Some f → factories_ p !! runtime_ f = Some a).

End runtime.
End Runtime.

(** ** [pyxir::onnx]: importing a model through the opaque function registry *)
Module Onnx.
Section onnx.

(** The layers of a graph are opaque here. *)
Context {XLayer : Type}.

(** Modelled from the spec: [graph::XGraph] (xgraph.hpp is not among the
    sources): "opaque to this core beyond being a shared,
    externally-constructed handle".  A graph has the name it was
    constructed with and its layers, none at construction. *)
Record XGraph : Type := {
  name : string;
  layers : list XLayer
}.

Definition new_XGraph (name : string) : XGraph :=
  {| name := name; layers := [] |}.

(** The graphs behind the [std::shared_ptr]s of the process; a shared
    pointer is the address of its graph. *)
Definition XGraphHolder : Type := addr.

(** Modelled from the spec: the "tagged values" an opaque function is
    invoked with (opaque_func.hpp is not among the sources).  The two the
    importers pass: a graph handle and a [std::string]. *)
Inductive OpaqueValue : Type :=
| of_XGraph (xg : XGraphHolder)
| of_string (s : string).

(** Modelled from the spec: [OpaqueFunc]: "wraps an underlying callable;
    invoked with an ordered list of type-erased argument values".  The
    callable works on the graphs in place and may throw. *)
Record OpaqueFunc : Type := {
  func_ : list OpaqueValue → M (gmap addr XGraph) unit
}.

(** What is observed of a run: the registry queries and the invocations,
    in order.  The trace is a record kept beside the process; no operation
    reads it. *)
Inductive event : Type :=
| ev_Exists (key : string)
| ev_Get (key : string)
| ev_invoke (f : OpaqueFunc) (args : list OpaqueValue).

Record Process : Type := {
  registry : gmap string OpaqueFunc;
  graphs : gmap addr XGraph;
  trace : list event
}.

Definition log (e : event) : M Process unit :=
  modify (λ p, {| registry := registry p; graphs := graphs p;
                  trace := trace p ++ [e] |}).

(** Modelled from the spec: [OpaqueFuncRegistry::Exists]
    (opaque_func_registry.hpp is not among the sources): "pure query, no
    side effects". *)
Definition OpaqueFuncRegistry_Exists (key : string) : M Process bool :=
  _ ← log (ev_Exists key);
  gets (λ p, bool_decide (is_Some (registry p !! key))).

(** Modelled from the spec: [OpaqueFuncRegistry::Get]: "fails with
    [NotFound] if no entry exists; never returns a null/empty
    callable". *)
Definition OpaqueFuncRegistry_Get (key : string) : M Process OpaqueFunc :=
  _ ← log (ev_Get key);
  found ← gets (λ p, registry p !! key);
  match found with
  | Some f => mret f
  | None => throw (NotFound key)
  end.

(** A callee that only acts on the graphs. *)
Definition in_graphs {A} (c : M (gmap addr XGraph) A) : M Process A := λ p,
  let '(r, g) := c (graphs p) in
  (r, {| registry := registry p; graphs := g; trace := trace p |}).

(** [f(args...)]: the wrapped callable runs on the graphs. *)
Definition invoke (f : OpaqueFunc) (args : list OpaqueValue) : M Process unit :=
  _ ← log (ev_invoke f args);
  in_graphs (func_ f args).

(** [std::make_shared<pyxir::graph::XGraph>(name)]: a new graph at an
    address no graph occupies. *)
Definition make_shared_XGraph (name : string) : M Process XGraphHolder :=
  a ← gets (λ p, fresh (dom (graphs p)));
  _ ← modify (λ p, {| registry := registry p;
                      graphs := <[a := new_XGraph name]> (graphs p);
                      trace := trace p |});
  mret a.

(** A [std::istringstream]: the underlying character sequence and the read
    position.  [str()] returns a copy of the whole sequence, wherever the
    read position is. *)
Record istringstream : Type := {
  buffer : string;
  gpos : nat
}.

Definition str (sstream : istringstream) : string := buffer sstream.

(** [import_onnx_model(const std::string &file_path)] *)
Definition import_onnx_model (file_path : string) : M Process XGraphHolder :=
  registered ← OpaqueFuncRegistry_Exists "pyxir.onnx.from_onnx";
  if negb registered then
    throw (runtime_error ("Cannot import ONNX model from file because"
                          +:+ " `pyxir.onnx.from_onnx` opaque function is"
                          +:+ " not registered"))
  else
    xg ← make_shared_XGraph "empty_onnx_model";
    from_onnx ← OpaqueFuncRegistry_Get "pyxir.onnx.from_onnx";
    _ ← invoke from_onnx [of_XGraph xg; of_string file_path];
    mret xg.

(** [import_onnx_model(std::istringstream &sstream)] *)
Definition import_onnx_model_sstream (sstream : istringstream)
    : M Process XGraphHolder :=
  registered ← OpaqueFuncRegistry_Exists "pyxir.onnx.from_onnx_bytes";
  if negb registered then
    throw (runtime_error ("Cannot import ONNX model from file because"
                          +:+ " `pyxir.onnx.from_onnx_bytes` opaque function is"
                          +:+ " not registered"))
  else
    xg ← make_shared_XGraph "empty_onnx_model";
    from_onnx ← OpaqueFuncRegistry_Get "pyxir.onnx.from_onnx_bytes";
    let bytes := str sstream in
    _ ← invoke from_onnx [of_XGraph xg; of_string bytes];
    mret xg.

(** The two entry points: the key each one needs, the source it hands to
    the importer, and the call itself. *)
Inductive entry_point : Type :=
| from_file (file_path : string)
| from_stream (sstream : istringstream).

Definition key_of (e : entry_point) : string :=
  match e with
  | from_file _ => "pyxir.onnx.from_onnx"
  | from_stream _ => "pyxir.onnx.from_onnx_bytes"
  end.

Definition source_of (e : entry_point) : string :=
  match e with
  | from_file file_path => file_path
  | from_stream sstream => buffer sstream
  end.

Definition import (e : entry_point) : M Process XGraphHolder :=
  match e with
  | from_file file_path => import_onnx_model file_path
  | from_stream sstream => import_onnx_model_sstream sstream
  end.

(** The [what()] of the exception either entry point throws when its key
    is missing, by key. *)
Definition not_registered (key : string) : string :=
  "Cannot import ONNX model from file because `" +:+ key
  +:+ "` opaque function is not registered".

End onnx.
End Onnx.

(** ** [pyxir::runtime::vai_rt]: the compute function of the DPU backend *)
Module VaiRt.
Section vai_rt.

(** Opaque at this level: the graph handle, a tensor buffer, and the DPU
    runner with the tensors and orderings derived from it (the members
    [dpu_runner_in_tensors_], [dpu_runner_out_tensors_],
    [in_tensor_order_], [out_tensor_order_] and [dpu_runner_]). *)
Context {XGraphHolder XBufferHolder Dpu : Type}.

(** What the missing vai_compute_func.cpp does with the DPU: set it up for
    a graph, and run it on input buffers, writing the output buffers. *)
Context (connect : XGraphHolder → string → list string → list string → Dpu).
Context (execute : list XBufferHolder → list XBufferHolder →
                   M Dpu (list XBufferHolder)).

(** [class VaiComputeFunc]: its private members. *)
Record VaiComputeFunc : Type := {
  xg_ : XGraphHolder;
  target_ : string;
  in_tensor_names_ : list string;
  out_tensor_names_ : list string;
  dpu_ : Dpu;
  supported_ops_ : gset string
}.

(** Modelled from the spec: the constructor [VaiComputeFunc(xg, target,
    in_tensor_names, out_tensor_names)] (declared in the header, defined
    elsewhere): the compute function is "bound to that
    graph/target/tensor-name set".  [supported_ops_] has the header's
    default member initializer,
    [{"Input", "Output", "DPUV1", "TupleGetItem"}]. *)
Definition new_VaiComputeFunc (xg : XGraphHolder) (target : string)
    (in_tensor_names out_tensor_names : list string) : VaiComputeFunc :=
  {| xg_ := xg; target_ := target;
     in_tensor_names_ := in_tensor_names;
     out_tensor_names_ := out_tensor_names;
     dpu_ := connect xg target in_tensor_names out_tensor_names;
     supported_ops_ := {["Input"; "Output"; "DPUV1"; "TupleGetItem"]} |}.

(** [is_op_supported(const std::string &op_type)]:
    [return supported_ops_.find(op_type) != supported_ops_.end();] *)
Definition is_op_supported (this : VaiComputeFunc) (op_type : string) : bool :=
  bool_decide (op_type ∈ supported_ops_ this).

(** Modelled from the spec: [operator()(in_tensors, out_tensors)]
    (declared in the header, defined elsewhere): "it must validate that
    the provided buffer counts match the tensor-name-list lengths it was
    constructed with, failing with [ArityMismatch] otherwise"; with
    matching counts it "executes the compiled subgraph and writes results
    into the output buffers in place".  The result is the content of
    [out_tensors] after the call. *)
Definition call (in_tensors out_tensors : list XBufferHolder)
    : M VaiComputeFunc (list XBufferHolder) := λ this,
  if bool_decide (length in_tensors = length (in_tensor_names_ this)
                  ∧ length out_tensors = length (out_tensor_names_ this))
  then
    let '(r, d) := execute in_tensors out_tensors (dpu_ this) in
    (r, {| xg_ := xg_ this; target_ := target_ this;
           in_tensor_names_ := in_tensor_names_ this;
           out_tensor_names_ := out_tensor_names_ this;
           dpu_ := d;
           supported_ops_ := supported_ops_ this |})
  else (Err ArityMismatch, this).

(** One operation on a compute function. *)
Inductive step : VaiComputeFunc → VaiComputeFunc → Prop :=
| step_call in_tensors out_tensors this :
    step this (call in_tensors out_tensors this).2
| step_is_op_supported (op_type : string) this :
    step this (let _ := is_op_supported this op_type in this).

(** What no operation changes: the tensor names the compute function was
    constructed with, and its set of supported operations. *)
Definition same_binding (this this' : VaiComputeFunc) : Prop :=
  in_tensor_names_ this' = in_tensor_names_ this
  ∧ out_tensor_names_ this' = out_tensor_names_ this
  ∧ supported_ops_ this' = supported_ops_ this.

End vai_rt.
End VaiRt.

(** ** Scenarios

    The stubs and processes of the testable scenarios: a backend whose
    constructor method records the arguments it observes, and a process in
    which that backend registered itself. *)
Module Scenario.

(** One observation of a stub: which stub, and the tuple it was called
    with. *)
Definition observation : Type :=
  string * (string * string * list string * list string * option bool).

(** A stub implementation: it appends what it observes to the world and
    returns a module named after itself. *)
Definition recording_stub (tag : string)
    : @Runtime.RuntimeModuleFactoryImpl string bool string (list observation) :=
  {| Runtime.get_runtime_module xg target ins outs run_options :=
       λ w, (Ok tag, w ++ [(tag, (xg, target, ins, outs, run_options))]) |}.

Definition Proc : Type :=
  @Runtime.Process string bool string string (list observation).

(** A backend registering itself at load time:
    [RuntimeModuleFactory::RegisterImpl(runtime).set_impl(new Impl())]. *)
Definition register (runtime : string)
    (impl : @Runtime.RuntimeModuleFactoryImpl string bool string (list observation))
    : M Proc addr :=
  a ← Runtime.RegisterImpl runtime;
  Runtime.set_impl_at Runtime.by_pointer a (Some impl).

(** The process in which runtime "cpu" is registered with a stub. *)
Definition cpu_process : Proc :=
  (register "cpu" (recording_stub "cpu-stub") (Runtime.start [])).2.

(** An importer that fills the graph it is handed: it names the graph
    after the source and gives it one layer; called otherwise, it reports an
    invocation error. *)
Definition importer : @Onnx.OpaqueFunc string :=
  {| Onnx.func_ args :=
       match args with
       | [Onnx.of_XGraph xg; Onnx.of_string source] =>
           modify (<[xg := {| Onnx.name := source; Onnx.layers := ["conv1"] |}]>)
       | _ => throw (InvocationError "expected (graph, source)")
       end |}.

(** An importer that cannot read its source. *)
Definition failing_importer : @Onnx.OpaqueFunc string :=
  {| Onnx.func_ args := throw (InvocationError "cannot parse model") |}.

(** A process in which [f] is registered under [key], and one in which no
    opaque function is. *)
Definition with_importer (key : string) (f : @Onnx.OpaqueFunc string)
    : @Onnx.Process string :=
  {| Onnx.registry := {[key := f]}; Onnx.graphs := ∅; Onnx.trace := [] |}.

Definition without_importer : @Onnx.Process string :=
  {| Onnx.registry := ∅; Onnx.graphs := ∅; Onnx.trace := [] |}.

(** A DPU stub: it counts its runs and copies the inputs to the outputs. *)
Definition stub_connect (xg target : string) (ins outs : list string) : nat := 0.

Definition stub_execute (in_tensors out_tensors : list (list nat))
    : M nat (list (list nat)) :=
  λ runs, (Ok in_tensors, S runs).

(** A compute function over the stub, with one input and one output
    tensor. *)
Definition compute_func : @VaiRt.VaiComputeFunc string nat :=
  VaiRt.new_VaiComputeFunc stub_connect "G" "dpuv1" ["a"] ["b"].

End Scenario.

(** ** Chained calls

    Every [set_impl] overload returns [*this], so calls on one factory
    chain: [factory.set_impl(i1).set_impl(i2)...].  A chain is the list of
    its calls, each with the overload used and the holder or pointer passed,
    null ones included. *)
Module Chain.
Section chain.

Context {XGraphHolder RunOptions RtModHolder World : Type}.

Definition set_impl_call : Type :=
  Runtime.set_impl_overload
  * option (@Runtime.RuntimeModuleFactoryImpl XGraphHolder RunOptions
              RtModHolder World).

Definition set_impl_chain (calls : list set_impl_call)
    (this : @Runtime.RuntimeModuleFactory XGraphHolder RunOptions RtModHolder World)
    : @Runtime.RuntimeModuleFactory XGraphHolder RunOptions RtModHolder World :=
  foldl (λ f call, Runtime.set_impl_via call.1 f call.2) this calls.

End chain.
End Chain.

(** * Properties *)

(** Unfolds the monad's operations, so that a computation applied to a state
  reduces to its result and final state. *)
Ltac run :=
unfold mbind, M_bind, mret, M_ret, gets, modify, throw in *; cbn in *.

(** ** The runtime module factory *)
Section runtime_properties.
Import Runtime.

Context {XGraphHolder RunOptions RtModHolder ComputeFuncFactoryImpl World : Type}.

Local Abbreviation Impl :=
  (@RuntimeModuleFactoryImpl XGraphHolder RunOptions RtModHolder World).
Local Abbreviation Factory :=
  (@RuntimeModuleFactory XGraphHolder RunOptions RtModHolder World).
Local Abbreviation Proc :=
  (@Process XGraphHolder RunOptions RtModHolder ComputeFuncFactoryImpl World).

Implicit Types (p : Proc) (f : Factory) (a : addr) (runtime : string).

(** *** The overloads of [set_impl] *)

Lemma set_impl_via_spec o f (impl : option Impl) :
  set_impl_via o f impl = {| runtime_ := runtime_ f; impl_ := impl |}.
Proof. by destruct o. Qed.

Lemma set_impl_ref_moves_from f (impl : option Impl) :
  (set_impl_ref f impl).2 = nullptr.
Proof. done. Qed.

(** *** Equations of the entry points *)

Lemma GetFactory_found runtime a p :
  factories_ p !! runtime = Some a → GetFactory runtime p = (Ok a, p).
Proof. intros H. unfold GetFactory. run. by rewrite H. Qed.

Lemma GetFactory_new runtime p :
  factories_ p !! runtime = None →
  GetFactory runtime p =
    (Ok (fresh (dom (objects p))),
     {| factories_ := <[runtime := fresh (dom (objects p))]> (factories_ p);
        objects := <[fresh (dom (objects p)) :=
                       new_RuntimeModuleFactory runtime]> (objects p);
        compute_factories_ := compute_factories_ p;
        world := world p |}).
Proof. intros H. unfold GetFactory. run. by rewrite H. Qed.

Lemma update_found a f method p :
  objects p !! a = Some f →
  update a method p =
    (Ok a, {| factories_ := factories_ p;
              objects := <[a := method f]> (objects p);
              compute_factories_ := compute_factories_ p;
              world := world p |}).
Proof. intros H. unfold update, deref. run. by rewrite H. Qed.

Lemma update_dangling a method p :
  objects p !! a = None → update a method p = (Err NullDereference, p).
Proof. intros H. unfold update, deref. run. by rewrite H. Qed.

Lemma set_compute_impl_found a f (c : option ComputeFuncFactoryImpl) p :
  objects p !! a = Some f →
  set_compute_impl a c p =
    (Ok a, {| factories_ := factories_ p; objects := objects p;
              compute_factories_ := <[runtime_ f := c]> (compute_factories_ p);
              world := world p |}).
Proof.
  intros H.
  unfold set_compute_impl, deref, ComputeFuncFactory_RegisterImpl,
    ComputeFuncFactory_set_impl.
  run. rewrite H. cbn.
  destruct (compute_factories_ p !! runtime_ f) eqn:E; cbn; [done|].
  by rewrite insert_insert_eq.
Qed.

Lemma GetRuntimeModule_registry xg target ins outs runtime
    (ro : RunOptionsHolder) p :
  let p' := (GetRuntimeModule xg target ins outs runtime ro p).2 in
  factories_ p' = factories_ p ∧ objects p' = objects p
  ∧ compute_factories_ p' = compute_factories_ p.
Proof.
  unfold GetRuntimeModule, deref, in_world. run.
  destruct (factories_ p !! runtime) as [a|]; cbn; [|done].
  destruct (objects p !! a) as [f|]; cbn; [|done].
  destruct (get_impl f) as [impl|]; cbn; [|done].
  by destruct (get_runtime_module impl _ _ _ _ _ _).
Qed.

(** *** The invariant of the registry *)

Lemma consistent_start (w : World) : consistent (start w : Proc).
Proof. split; intros ? ?; cbn; by rewrite lookup_empty. Qed.

Lemma consistent_ext p p' :
  factories_ p' = factories_ p → objects p' = objects p →
  consistent p → consistent p'.
Proof. unfold consistent. by intros -> ->. Qed.

Lemma consistent_GetFactory runtime p :
  consistent p → consistent (GetFactory runtime p).2.
Proof.
  intros [Hto Hfrom].
  destruct (factories_ p !! runtime) as [a|] eqn:E.
  { by rewrite (GetFactory_found _ a). }
  rewrite GetFactory_new; [|done]. cbn.
  set (a := fresh (dom (objects p))).
  assert (objects p !! a = None) as Hfresh.
  { apply not_elem_of_dom, is_fresh. }
  split; cbn.
  - intros r b. rewrite lookup_insert. case_decide as Hr.
    + intros [= <-]. subst r. rewrite lookup_insert_eq. eauto.
    + intros Hb. destruct (Hto _ _ Hb) as (g & Hg & Hname).
      rewrite lookup_insert_ne; [eauto|]. congruence.
  - intros b g. rewrite lookup_insert. case_decide as Hb.
    + intros [= <-]. subst b. cbn. by rewrite lookup_insert_eq.
    + intros Hg. pose proof (Hfrom _ _ Hg) as Hr.
      rewrite lookup_insert_ne; [done|]. congruence.
Qed.

Lemma consistent_update a method p :
  (∀ f, runtime_ (method f) = runtime_ f) →
  consistent p → consistent (update a method p).2.
Proof.
  intros Hname [Hto Hfrom].
  destruct (objects p !! a) as [f|] eqn:E.
  2: { by rewrite update_dangling. }
  rewrite (update_found _ f); [|done]. split; cbn.
  - intros r b Hb. destruct (Hto _ _ Hb) as (g & Hg & Hr).
    rewrite lookup_insert. case_decide as Hab; [|eauto].
    subst b. exists (method f). split; [done|].
    rewrite Hname. congruence.
  - intros b g. rewrite lookup_insert. case_decide as Hab.
    + intros [= <-]. subst b. rewrite Hname. eauto.
    + eauto.
Qed.

Lemma set_impl_ref_at_found a b f g p :
  objects p !! a = Some f → objects p !! b = Some g →
  set_impl_ref_at a b p =
    (Ok a, {| factories_ := factories_ p;
              objects :=
                <[a := {| runtime_ := runtime_ f; impl_ := get_impl g |}]>
                  (<[b := {| runtime_ := runtime_ g; impl_ := nullptr |}]>
                     (objects p));
              compute_factories_ := compute_factories_ p;
              world := world p |}).
Proof.
  intros Hf Hg. unfold set_impl_ref_at, update, deref. run.
  rewrite Hg. cbn. rewrite Hf. cbn. rewrite Hg. cbn.
  rewrite lookup_insert. case_decide as Hab; cbn; [|by rewrite Hf].
  subst b. by replace g with f by congruence.
Qed.

Lemma set_impl_ref_at_updates a b f g p :
  objects p !! a = Some f → objects p !! b = Some g →
  (set_impl_ref_at a b p).2 =
    (update a (λ f', (set_impl_ref f' (get_impl g)).1)
       (update b (λ g', {| runtime_ := runtime_ g'; impl_ := nullptr |}) p).2).2.
Proof.
  intros Hf Hg. rewrite (set_impl_ref_at_found a b f g); [|done..].
  rewrite (update_found b g); [|done]. cbn.
  destruct (decide (b = a)) as [->|Hab].
  - erewrite update_found; [|cbn; apply lookup_insert_eq].
    cbn. by replace g with f by congruence.
  - erewrite update_found; [|cbn; by rewrite lookup_insert_ne]. done.
Qed.

Lemma step_consistent p p' : step p p' → consistent p → consistent p'.
Proof.
  destruct 1 as [runtime p|o runtime a impl p _|runtime runtime' a b p Ha Hb
                |runtime a c p _
                |xg target ins outs runtime ro p|runtime p]; intros Hp.
  - by apply consistent_GetFactory.
  - apply consistent_update; [|done]. intros f. by rewrite set_impl_via_spec.
  - destruct (proj1 Hp _ _ Ha) as (f & Hf & _).
    destruct (proj1 Hp _ _ Hb) as (g & Hg & _).
    rewrite (set_impl_ref_at_updates a b f g); [|done..].
    by do 2 (apply consistent_update; [done|]).
  - destruct (objects p !! a) as [f|] eqn:E.
    + by rewrite (set_compute_impl_found _ f).
    + unfold set_compute_impl, deref. run. by rewrite E.
  - destruct (GetRuntimeModule_registry xg target ins outs runtime ro p)
      as (? & ? & _).
    by eapply consistent_ext.
  - done.
Qed.

Lemma reachable_consistent p : reachable p → consistent p.
Proof.
  intros [w Hrun]. revert p Hrun. apply rtc_ind_r.
  - apply consistent_start.
  - intros p p' _ Hstep IH. by eapply step_consistent.
Qed.

(** A name has at most one factory object. *)
Lemma consistent_one_factory p a1 a2 f1 f2 :
  consistent p →
  objects p !! a1 = Some f1 → objects p !! a2 = Some f2 →
  runtime_ f1 = runtime_ f2 → a1 = a2.
Proof.
  intros [_ Hfrom] H1 H2 Hname.
  apply Hfrom in H1, H2. rewrite Hname in H1. congruence.
Qed.

(** *** Failed lookup *)

(** C1. [GetRuntimeModule] for a runtime name under which the manager holds
    no factory fails with [UnknownRuntime], and the process is left as it
    was: the manager's map gets no entry, no factory object is created, and
    the result carries no module. *)
Theorem GetRuntimeModule_unknown_runtime xg target ins outs runtime
    (run_options : RunOptionsHolder) p :
  factories_ p !! runtime = None →
  GetRuntimeModule xg target ins outs runtime run_options p
    = (Err (UnknownRuntime runtime), p).
Proof. intros H. unfold GetRuntimeModule. run. by rewrite H. Qed.

(** *** Installing an implementation *)

Lemma set_impl_at_found o a f (impl : option Impl) p :
  objects p !! a = Some f →
  set_impl_at o a impl p =
    (Ok a, {| factories_ := factories_ p;
              objects := <[a := {| runtime_ := runtime_ f; impl_ := impl |}]>
                           (objects p);
              compute_factories_ := compute_factories_ p;
              world := world p |}).
Proof.
  intros H. unfold set_impl_at.
  rewrite (update_found _ f); [|done]. by rewrite set_impl_via_spec.
Qed.

Lemma GetRuntimeModule_found xg target ins outs runtime
    (run_options : RunOptionsHolder) a f impl p :
  factories_ p !! runtime = Some a → objects p !! a = Some f →
  get_impl f = Some impl →
  GetRuntimeModule xg target ins outs runtime run_options p
    = in_world (get_runtime_module impl xg target ins outs run_options) p.
Proof.
  intros Ha Hf Himpl. unfold GetRuntimeModule, deref. run.
  rewrite Ha. cbn. rewrite Hf. cbn. by rewrite Himpl.
Qed.

(** C2. On the factory of a runtime name, [set_impl(A)] followed by
    [set_impl(B)], by any of the overloads, leaves [B] installed:
    [get_impl] yields [B], the process is the one reached by installing [B]
    alone, so that nothing of [A] is kept, and [GetRuntimeModule] for that
    name is the call of [B]'s constructor method. *)
Theorem set_impl_last_write_wins o1 o2 (A B : Impl) runtime a f p :
  factories_ p !! runtime = Some a → objects p !! a = Some f →
  let p1 := (set_impl_at o1 a (Some A) p).2 in
  let p2 := (set_impl_at o2 a (Some B) p1).2 in
  get_impl (set_impl_via o2 (set_impl_via o1 f (Some A)) (Some B)) = Some B
  ∧ get_impl_at a p2 = (Ok (Some B), p2)
  ∧ p2 = (set_impl_at o2 a (Some B) p).2
  ∧ ∀ xg target ins outs (run_options : RunOptionsHolder),
      GetRuntimeModule xg target ins outs runtime run_options p2
        = in_world (get_runtime_module B xg target ins outs run_options) p2.
Proof.
  intros Ha Hf p1 p2.
  assert (p1 = {| factories_ := factories_ p;
                  objects := <[a := {| runtime_ := runtime_ f;
                                       impl_ := Some A |}]> (objects p);
                  compute_factories_ := compute_factories_ p;
                  world := world p |}) as Hp1.
  { unfold p1. by rewrite (set_impl_at_found _ _ f). }
  assert (p2 = {| factories_ := factories_ p;
                  objects := <[a := {| runtime_ := runtime_ f;
                                       impl_ := Some B |}]> (objects p);
                  compute_factories_ := compute_factories_ p;
                  world := world p |}) as Hp2.
  { unfold p2. rewrite Hp1.
    erewrite set_impl_at_found; [|cbn; apply lookup_insert_eq].
    cbn. by rewrite insert_insert_eq. }
  split_and!.
  - by rewrite !set_impl_via_spec.
  - unfold get_impl_at, deref. run. rewrite Hp2. cbn.
    by rewrite lookup_insert_eq.
  - rewrite Hp2. by rewrite (set_impl_at_found _ _ f).
  - intros xg target ins outs run_options.
    apply (GetRuntimeModule_found _ _ _ _ _ _ a
             {| runtime_ := runtime_ f; impl_ := Some B |}).
    + by rewrite Hp2.
    + rewrite Hp2. cbn. apply lookup_insert_eq.
    + done.
Qed.

(** *** One factory per runtime name *)

(** C3. In every state of a process, [RegisterImpl] — the manager's
    [GetFactory] — called twice with the same runtime name returns the same
    reference both times, the second call changing nothing, and the factory
    behind it is the only factory object created for that name: two factory
    objects with one runtime name are one object. *)
Theorem RegisterImpl_one_factory_per_runtime runtime p :
  reachable p →
  ∃ a p1,
    RegisterImpl runtime p = (Ok a, p1)
    ∧ RegisterImpl runtime p1 = (Ok a, p1)
    ∧ GetFactory runtime p1 = (Ok a, p1)
    ∧ (∃ f, objects p1 !! a = Some f ∧ runtime_ f = runtime)
    ∧ ∀ a1 a2 f1 f2,
        objects p1 !! a1 = Some f1 → objects p1 !! a2 = Some f2 →
        runtime_ f1 = runtime_ f2 → a1 = a2.
Proof.
  intros Hp. apply reachable_consistent in Hp.
  pose proof (consistent_GetFactory runtime p Hp) as Hp1.
  unfold RegisterImpl.
  destruct (GetFactory runtime p) as [r p1] eqn:E. cbn in Hp1.
  assert (∃ a, r = Ok a ∧ factories_ p1 !! runtime = Some a) as (a & -> & Ha).
  { destruct (factories_ p !! runtime) as [a|] eqn:Hr.
    - rewrite (GetFactory_found _ a) in E; [|done].
      injection E as <- <-. eauto.
    - rewrite GetFactory_new in E; [|done].
      injection E as <- <-. eexists. split; [done|]. cbn.
      apply lookup_insert_eq. }
  exists a, p1. split_and!; [done|by apply GetFactory_found..| |].
  - by apply (proj1 Hp1).
  - intros a1 a2 f1 f2. by apply consistent_one_factory.
Qed.

(** *** Dispatch *)

(** C4. For a runtime name whose factory has an implementation installed,
    [GetRuntimeModule] is the call of that implementation's constructor
    method on the very arguments it was given — graph, target, input and
    output tensor names and run options — and the call that leaves
    [run_options] out hands it the null run options. *)
Theorem GetRuntimeModule_passes_arguments xg target ins outs runtime
    (run_options : RunOptionsHolder) a f impl p :
  factories_ p !! runtime = Some a → objects p !! a = Some f →
  get_impl f = Some impl →
  GetRuntimeModule xg target ins outs runtime run_options p
    = in_world (get_runtime_module impl xg target ins outs run_options) p
  ∧ GetRuntimeModule_default xg target ins outs runtime p
    = in_world (get_runtime_module impl xg target ins outs nullptr) p.
Proof.
  intros Ha Hf Himpl. unfold GetRuntimeModule_default.
  split; by apply (GetRuntimeModule_found _ _ _ _ _ _ a f).
Qed.

(** *** The paired compute function factory *)

(** C5. [set_compute_impl(c)] on a factory created for runtime name [r]
    returns the reference it was called on and, in that one call, makes [c]
    the implementation registered with the compute function factory under
    [r]; the other names of that registry, the manager's map, the factory
    objects and the world are as before. *)
Theorem set_compute_impl_same_runtime a f (c : option ComputeFuncFactoryImpl) p :
  objects p !! a = Some f →
  ∃ p', set_compute_impl a c p = (Ok a, p')
    ∧ compute_factories_ p' !! runtime_ f = Some c
    ∧ (∀ r, r ≠ runtime_ f →
         compute_factories_ p' !! r = compute_factories_ p !! r)
    ∧ factories_ p' = factories_ p ∧ objects p' = objects p
    ∧ world p' = world p.
Proof.
  intros Hf. eexists. split; [by apply set_compute_impl_found|]. cbn.
  split_and!; try done.
  - apply lookup_insert_eq.
  - intros r Hr. by apply lookup_insert_ne.
Qed.

End runtime_properties.

(** ** Importing an ONNX model *)
Section onnx_properties.
Import Onnx.

Context {XLayer : Type}.

Local Abbreviation Func := (@OpaqueFunc XLayer).
Local Abbreviation Proc := (@Process XLayer).

Implicit Types (p : Proc) (f : Func) (e : entry_point).

(** A run of an entry point whose key is not registered. *)
Lemma import_unregistered e p :
  registry p !! key_of e = None →
  import e p =
    (Err (runtime_error (not_registered (key_of e))),
     {| registry := registry p; graphs := graphs p;
        trace := trace p ++ [ev_Exists (key_of e)] |}).
Proof.
  intros H.
  destruct e as [file_path|sstream]; cbn in H |- *;
    unfold import_onnx_model, import_onnx_model_sstream,
      OpaqueFuncRegistry_Exists, log; run; rewrite H;
    rewrite bool_decide_eq_false_2; [|by apply is_Some_None| |by apply is_Some_None];
    reflexivity.
Qed.

(** A run of an entry point whose key is registered: the graph is made, the
    importer is fetched and invoked, and its outcome decides the result. *)
Lemma import_registered e f p :
  registry p !! key_of e = Some f →
  let xg := fresh (dom (graphs p)) in
  let args := [of_XGraph xg; of_string (source_of e)] in
  let out := func_ f args (<[xg := new_XGraph "empty_onnx_model"]> (graphs p)) in
  import e p =
    (match out.1 with Ok _ => Ok xg | Err err => Err err end,
     {| registry := registry p; graphs := out.2;
        trace := trace p ++ [ev_Exists (key_of e); ev_Get (key_of e);
                             ev_invoke f args] |}).
Proof.
  intros H xg args out. subst out args xg.
  destruct e as [file_path|sstream]; cbn in H |- *;
    unfold import_onnx_model, import_onnx_model_sstream,
      OpaqueFuncRegistry_Exists, OpaqueFuncRegistry_Get, make_shared_XGraph,
      invoke, in_graphs, log, str; run; rewrite H;
    (rewrite bool_decide_eq_true_2; [|by eexists]); cbn; rewrite H; cbn;
    destruct (func_ f _ _) as [[[]|err] g]; cbn; by rewrite <- !app_assoc.
Qed.

(** C6. When the key an entry point needs is not registered, the entry
    point throws a [runtime_error] whose message names the key and says that
    the opaque function is not registered; all it did before is the one
    [Exists] query: [Get] is not called, nothing is invoked, and no graph is
    made. *)
Theorem import_onnx_model_not_registered e p :
  registry p !! key_of e = None →
  ∃ p', import e p = (Err (runtime_error (not_registered (key_of e))), p')
    ∧ trace p' = trace p ++ [ev_Exists (key_of e)]
    ∧ registry p' = registry p ∧ graphs p' = graphs p.
Proof. intros H. eexists. split; [by apply import_unregistered|done]. Qed.

(** C7, as amended. When the key an entry point needs is registered, the
    entry point invokes the registered callable exactly once, after one
    [Exists] and one [Get], with the graph handle and the source — the file
    path, or the whole content of the stream wherever its read position is
    — and returns that graph handle if the callable returns normally; if the
    callable throws, its exception is the outcome of the entry point. *)
Theorem import_onnx_model_invokes_once e f p :
  registry p !! key_of e = Some f →
  let xg := fresh (dom (graphs p)) in
  let source := match e with
                | from_file file_path => file_path
                | from_stream sstream => buffer sstream
                end in
  let args := [of_XGraph xg; of_string source] in
  let out := func_ f args (<[xg := new_XGraph "empty_onnx_model"]> (graphs p)) in
  trace (import e p).2
    = trace p ++ [ev_Exists (key_of e); ev_Get (key_of e); ev_invoke f args]
  ∧ graphs (import e p).2 = out.2
  ∧ (import e p).1 = match out.1 with Ok _ => Ok xg | Err err => Err err end.
Proof.
  intros H xg source args out.
  pose proof (import_registered e f p H) as Hrun. cbn zeta in Hrun.
  replace source with (source_of e) in * by (by destruct e).
  subst out args xg. by rewrite Hrun.
Qed.

(** C10. When an entry point returns a graph handle, the handle is that of
    a graph made during the call — no graph was at that address before —
    the importer registered under the entry point's key was invoked with
    that same handle, at a moment when the graph behind it was the new graph
    named "empty_onnx_model", and the graphs of the process are as the
    importer left them. *)
Theorem import_onnx_model_returns_fresh_graph e p xg p' :
  import e p = (Ok xg, p') →
  graphs p !! xg = None
  ∧ ∃ f, registry p !! key_of e = Some f
    ∧ trace p' = trace p ++ [ev_Exists (key_of e); ev_Get (key_of e);
                             ev_invoke f [of_XGraph xg; of_string (source_of e)]]
    ∧ <[xg := new_XGraph "empty_onnx_model"]> (graphs p) !! xg
        = Some {| name := "empty_onnx_model"; layers := [] |}
    ∧ func_ f [of_XGraph xg; of_string (source_of e)]
        (<[xg := new_XGraph "empty_onnx_model"]> (graphs p))
      = (Ok (), graphs p').
Proof.
  intros Hrun.
  destruct (registry p !! key_of e) as [f|] eqn:Hkey.
  2: { by rewrite import_unregistered in Hrun. }
  rewrite (import_registered e f p Hkey) in Hrun. cbn zeta in Hrun.
  destruct (func_ f _ _) as [[[]|err] g] eqn:Hcall; cbn in Hrun; [|done].
  injection Hrun as <- <-.
  split; [apply not_elem_of_dom, is_fresh|].
  exists f. split_and!; try done.
  apply lookup_insert_eq.
Qed.

End onnx_properties.

(** ** The compute function of the DPU backend *)
Section vai_rt_properties.
Import VaiRt.

Context {XGraphHolder XBufferHolder Dpu : Type}.
Context (connect : XGraphHolder → string → list string → list string → Dpu).
Context (execute : list XBufferHolder → list XBufferHolder →
                   M Dpu (list XBufferHolder)).

Local Abbreviation Func := (@VaiComputeFunc XGraphHolder Dpu).
Local Abbreviation new := (new_VaiComputeFunc connect).
Local Abbreviation operations := (rtc (step execute)).

Implicit Types (this : Func) (op_type : string).

Lemma step_same_binding this this' :
  step execute this this' → same_binding this this'.
Proof.
  destruct 1 as [in_tensors out_tensors this|op_type this]; [|done].
  unfold call. case_bool_decide; [|done].
  by destruct (execute _ _ _).
Qed.

Lemma operations_same_binding this this' :
  operations this this' → same_binding this this'.
Proof.
  induction 1 as [this|this this1 this' Hstep _ IH]; [done|].
  apply step_same_binding in Hstep.
  destruct Hstep as (? & ? & ?), IH as (? & ? & ?).
  split_and!; congruence.
Qed.

(** C8. A compute function constructed with input tensor names [I] and
    output tensor names [O], whatever was done with it since, fails with
    [ArityMismatch] when it is invoked with a number of input buffers other
    than the length of [I] or a number of output buffers other than the
    length of [O], and the subgraph is not executed: the compute function
    and its DPU are as before the call. *)
Theorem call_arity_mismatch xg target (I O : list string)
    (in_tensors out_tensors : list XBufferHolder) this :
  operations (new xg target I O) this →
  length in_tensors ≠ length I ∨ length out_tensors ≠ length O →
  call execute in_tensors out_tensors this = (Err ArityMismatch, this).
Proof.
  intros Hops Hlen. apply operations_same_binding in Hops.
  destruct Hops as (HI & HO & _). cbn in HI, HO.
  unfold call. rewrite HI, HO.
  rewrite bool_decide_eq_false_2; [done|]. tauto.
Qed.

(** C9. For a compute function, whatever was done with it since its
    construction, [is_op_supported(t)] is true exactly when [t] is one of
    "Input", "Output", "DPUV1" and "TupleGetItem", and its set of supported
    operations is the one it was constructed with. *)
Theorem is_op_supported_exactly_four xg target (I O : list string) this op_type :
  operations (new xg target I O) this →
  (is_op_supported this op_type = true
   ↔ op_type = "Input" ∨ op_type = "Output" ∨ op_type = "DPUV1"
     ∨ op_type = "TupleGetItem")
  ∧ supported_ops_ this = supported_ops_ (new xg target I O).
Proof.
  intros Hops. apply operations_same_binding in Hops.
  destruct Hops as (_ & _ & Hset). split; [|done].
  unfold is_op_supported. rewrite bool_decide_eq_true, Hset. cbn.
  rewrite !elem_of_union, !elem_of_singleton. tauto.
Qed.

End vai_rt_properties.

(** Scenario A: no runtime named "x" is registered. *)
Lemma GetRuntimeModule_unknown_runtime_witness :
  Runtime.factories_ Scenario.cpu_process !! "x" = None
  ∧ Runtime.GetRuntimeModule "G" "t" ["a"] ["b"] "x" None Scenario.cpu_process
    = (Err (UnknownRuntime "x"), Scenario.cpu_process).
Proof.
  assert (Runtime.factories_ Scenario.cpu_process !! "x" = None) as H
    by reflexivity.
  split; [exact H|].
  exact (GetRuntimeModule_unknown_runtime "G" "t" ["a"] ["b"] "x" None
           Scenario.cpu_process H).
Defined.

(** Two stubs installed in turn on the factory of "cpu". *)
Lemma set_impl_last_write_wins_witness :
  let A := Scenario.recording_stub "A" in
  let B := Scenario.recording_stub "B" in
  let p := Scenario.cpu_process in
  let p2 := (Runtime.set_impl_at Runtime.by_holder 1%positive (Some B)
               (Runtime.set_impl_at Runtime.by_holder_ref 1%positive (Some A) p).2).2 in
  Runtime.get_impl_at 1%positive p2 = (Ok (Some B), p2)
  ∧ Runtime.world
      (Runtime.GetRuntimeModule "G" "t" ["a"] ["b"] "cpu" None p2).2
    = [("B", ("G", "t", ["a"], ["b"], None))].
Proof.
  intros A B p p2.
  destruct (set_impl_last_write_wins Runtime.by_holder_ref Runtime.by_holder
              A B "cpu" 1%positive
              {| Runtime.runtime_ := "cpu";
                 Runtime.impl_ := Some (Scenario.recording_stub "cpu-stub") |}
              p eq_refl eq_refl) as (_ & Hget & _ & Hcall).
  split; [exact Hget|].
  fold p2 in Hcall. rewrite Hcall. reflexivity.
Defined.

(** From empty registries, before any implementation is installed: the
    first [RegisterImpl] of "cpu" creates the factory, the second returns
    the same reference and creates nothing, and the factory has no
    implementation yet. *)
Lemma RegisterImpl_one_factory_per_runtime_witness :
  let p : Scenario.Proc := Runtime.start [] in
  let p1 := (Runtime.RegisterImpl "cpu" p).2 in
  Runtime.reachable p
  ∧ Runtime.factories_ p !! "cpu" = None
  ∧ Runtime.RegisterImpl "cpu" p = (Ok 1%positive, p1)
  ∧ Runtime.RegisterImpl "cpu" p1 = (Ok 1%positive, p1)
  ∧ Runtime.objects p1
    = {[1%positive := Runtime.new_RuntimeModuleFactory "cpu"]}
  ∧ Runtime.get_impl_at 1%positive p1 = (Ok None, p1).
Proof.
  intros p p1.
  assert (Runtime.reachable p) as H by (exists []; apply rtc_refl).
  destruct (RegisterImpl_one_factory_per_runtime "cpu" p H)
    as (a & p1' & H1 & H2 & _).
  assert (a = 1%positive ∧ p1' = p1) as [-> ->].
  { change (Runtime.RegisterImpl "cpu" p) with (Ok 1%positive, p1) in H1.
    by injection H1 as <- <-. }
  split_and!; [exact H|reflexivity|exact H1|exact H2|reflexivity..].
Defined.

(** Scenario B: the stub registered for "cpu" observes exactly the tuple of
    the call, with the null run options when they are left out. *)
Lemma GetRuntimeModule_passes_arguments_witness :
  let p := Scenario.cpu_process in
  Runtime.factories_ p !! "cpu" = Some 1%positive
  ∧ Runtime.GetRuntimeModule_default "G" "t" ["a"] ["b"] "cpu" p
    = (Ok "cpu-stub",
       {| Runtime.factories_ := Runtime.factories_ p;
          Runtime.objects := Runtime.objects p;
          Runtime.compute_factories_ := Runtime.compute_factories_ p;
          Runtime.world := [("cpu-stub", ("G", "t", ["a"], ["b"], None))] |}).
Proof.
  intros p. split; [reflexivity|].
  destruct (GetRuntimeModule_passes_arguments "G" "t" ["a"] ["b"] "cpu" None
              1%positive
              {| Runtime.runtime_ := "cpu";
                 Runtime.impl_ := Some (Scenario.recording_stub "cpu-stub") |}
              (Scenario.recording_stub "cpu-stub") p eq_refl eq_refl eq_refl)
    as [_ Hdefault].
  rewrite Hdefault. reflexivity.
Defined.

(** The factory of "cpu" pairs itself with a compute implementation. *)
Lemma set_compute_impl_same_runtime_witness :
  let p := Scenario.cpu_process in
  ∃ p', Runtime.set_compute_impl 1%positive (Some "cpu-compute") p
          = (Ok 1%positive, p')
    ∧ Runtime.compute_factories_ p' !! "cpu" = Some (Some "cpu-compute").
Proof.
  intros p.
  destruct (set_compute_impl_same_runtime 1%positive
              {| Runtime.runtime_ := "cpu";
                 Runtime.impl_ := Some (Scenario.recording_stub "cpu-stub") |}
              (Some "cpu-compute") p eq_refl) as (p' & Hcall & Hreg & _).
  exists p'. split; [exact Hcall|exact Hreg].
Defined.

(** Scenario C: neither importer is registered. *)
Lemma import_onnx_model_not_registered_witness :
  Onnx.import (Onnx.from_stream {| Onnx.buffer := "bytes"; Onnx.gpos := 2 |})
    Scenario.without_importer
  = (Err (runtime_error
            "Cannot import ONNX model from file because `pyxir.onnx.from_onnx_bytes` opaque function is not registered"),
     {| Onnx.registry := ∅; Onnx.graphs := ∅;
        Onnx.trace := [Onnx.ev_Exists "pyxir.onnx.from_onnx_bytes"] |}).
Proof.
  destruct (import_onnx_model_not_registered
              (Onnx.from_stream {| Onnx.buffer := "bytes"; Onnx.gpos := 2 |})
              Scenario.without_importer eq_refl)
    as (p' & Hrun & Htrace & Hregistry & Hgraphs).
  rewrite Hrun. destruct p' as [r g t]. cbn in *. by subst.
Defined.

(** C7 as stated fails: with an importer registered that throws, the entry
    point invokes it and returns no graph handle. *)
Lemma import_onnx_model_invokes_once_counterexample :
  ¬ (∀ (e : Onnx.entry_point) (f : @Onnx.OpaqueFunc string) p,
       Onnx.registry p !! Onnx.key_of e = Some f →
       ∃ xg p', Onnx.import e p = (Ok xg, p')).
Proof.
  intros Hclaim.
  destruct (Hclaim (Onnx.from_file "model.onnx") Scenario.failing_importer
              (Scenario.with_importer "pyxir.onnx.from_onnx"
                 Scenario.failing_importer) eq_refl)
    as (xg & p' & Hrun).
  discriminate Hrun.
Qed.

(** The run at that input: the importer is invoked on the new graph and its
    exception is the outcome. *)
Example import_onnx_model_failing_importer :
  Onnx.import (Onnx.from_file "model.onnx")
    (Scenario.with_importer "pyxir.onnx.from_onnx" Scenario.failing_importer)
  = (Err (InvocationError "cannot parse model"),
     {| Onnx.registry := {["pyxir.onnx.from_onnx" := Scenario.failing_importer]};
        Onnx.graphs := {[1%positive := Onnx.new_XGraph "empty_onnx_model"]};
        Onnx.trace := [Onnx.ev_Exists "pyxir.onnx.from_onnx";
                       Onnx.ev_Get "pyxir.onnx.from_onnx";
                       Onnx.ev_invoke Scenario.failing_importer
                         [Onnx.of_XGraph 1%positive;
                          Onnx.of_string "model.onnx"]] |}).
Proof. reflexivity. Qed.

(** A stream that has been read from: the importer gets the whole content. *)
Lemma import_onnx_model_invokes_once_witness :
  let p := Scenario.with_importer "pyxir.onnx.from_onnx_bytes" Scenario.importer in
  let e := Onnx.from_stream {| Onnx.buffer := "bytes"; Onnx.gpos := 2 |} in
  Onnx.trace (Onnx.import e p).2
    = [Onnx.ev_Exists "pyxir.onnx.from_onnx_bytes";
       Onnx.ev_Get "pyxir.onnx.from_onnx_bytes";
       Onnx.ev_invoke Scenario.importer
         [Onnx.of_XGraph 1%positive; Onnx.of_string "bytes"]]
  ∧ (Onnx.import e p).1 = Ok 1%positive.
Proof.
  intros p e.
  destruct (import_onnx_model_invokes_once e Scenario.importer p eq_refl)
    as (Htrace & _ & Hresult).
  split; [exact Htrace|exact Hresult].
Defined.

(** A successful import from a file path. *)
Lemma import_onnx_model_returns_fresh_graph_witness :
  let p := Scenario.with_importer "pyxir.onnx.from_onnx" Scenario.importer in
  Onnx.graphs p !! 1%positive = None
  ∧ Onnx.graphs (Onnx.import (Onnx.from_file "model.onnx") p).2 !! 1%positive
    = Some {| Onnx.name := "model.onnx"; Onnx.layers := ["conv1"] |}.
Proof.
  intros p.
  destruct (import_onnx_model_returns_fresh_graph
              (Onnx.from_file "model.onnx") p 1%positive
              (Onnx.import (Onnx.from_file "model.onnx") p).2 eq_refl)
    as (Hfresh & _).
  split; [exact Hfresh|reflexivity].
Defined.

(** After a run with one buffer each way, two input buffers are refused. *)
Lemma call_arity_mismatch_witness :
  let this := (VaiRt.call Scenario.stub_execute [[1; 2]] [[0; 0]]
                 Scenario.compute_func).2 in
  VaiRt.dpu_ this = 1
  ∧ VaiRt.call Scenario.stub_execute [[1; 2]; [3; 4]] [[0; 0]] this
    = (Err ArityMismatch, this).
Proof.
  intros this. split; [reflexivity|].
  apply (call_arity_mismatch Scenario.stub_connect Scenario.stub_execute
           "G" "dpuv1" ["a"] ["b"]).
  - apply rtc_once. apply VaiRt.step_call.
  - left. cbn. lia.
Defined.

(** "DPUV1" is supported by the compute function, also after a run. *)
Lemma is_op_supported_exactly_four_witness :
  let this := (VaiRt.call Scenario.stub_execute [[1; 2]] [[0; 0]]
                 Scenario.compute_func).2 in
  VaiRt.is_op_supported this "DPUV1" = true
  ∧ VaiRt.is_op_supported this "Conv2D" = false.
Proof.
  intros this.
  assert (rtc (VaiRt.step Scenario.stub_execute) Scenario.compute_func this)
    as Hops by (apply rtc_once; apply VaiRt.step_call).
  split.
  - apply (is_op_supported_exactly_four Scenario.stub_connect
             Scenario.stub_execute "G" "dpuv1" ["a"] ["b"] this "DPUV1" Hops).
    tauto.
  - apply not_true_is_false. intros Hsupported.
    apply (is_op_supported_exactly_four Scenario.stub_connect
             Scenario.stub_execute "G" "dpuv1" ["a"] ["b"] this "Conv2D" Hops)
      in Hsupported.
    by destruct Hsupported as [?|[?|[?|?]]].
Defined.

(** * Further properties of the embedded code *)

(** ** The factory object *)
Section factory_properties.
Import Runtime.

Context {XGraphHolder RunOptions RtModHolder ComputeFuncFactoryImpl World : Type}.

Local Abbreviation Impl :=
  (@RuntimeModuleFactoryImpl XGraphHolder RunOptions RtModHolder World).
Local Abbreviation Factory :=
  (@RuntimeModuleFactory XGraphHolder RunOptions RtModHolder World).
Local Abbreviation Proc :=
  (@Process XGraphHolder RunOptions RtModHolder ComputeFuncFactoryImpl World).

Implicit Types (p : Proc) (f : Factory) (a b : addr) (runtime : string).

(** X1. A factory constructed for a runtime name keeps that name through any
    chain of [set_impl] calls, by whichever overloads, and holds what the
    last call of the chain installed — a null holder if that call passed
    one; with no call at all it holds the null holder it was constructed
    with. *)
Theorem set_impl_chain_last_call runtime
    (calls : list (@Chain.set_impl_call XGraphHolder RunOptions RtModHolder World)) :
  let f := Chain.set_impl_chain calls (new_RuntimeModuleFactory runtime) in
  runtime_ f = runtime
  ∧ get_impl f = match last calls with
                 | Some call => call.2
                 | None => nullptr
                 end.
Proof.
  induction calls as [|call calls IH] using rev_ind; [done|].
  cbn zeta in *. unfold Chain.set_impl_chain in *.
  rewrite foldl_snoc, last_snoc, set_impl_via_spec. cbn.
  split; [apply IH|done].
Qed.

(** X2. [set_impl] and [set_compute_impl] on one factory can be chained in
    either order: both chains end in the same process and return the
    reference they started from, the factory then holds the installed
    implementation, and the compute implementation is registered under the
    factory's runtime name. *)
Theorem set_impl_set_compute_impl_commute o a f (impl : option Impl)
    (c : option ComputeFuncFactoryImpl) p :
  objects p !! a = Some f →
  ∃ p', (a' ← set_impl_at o a impl; set_compute_impl a' c) p = (Ok a, p')
    ∧ (a' ← set_compute_impl a c; set_impl_at o a' impl) p = (Ok a, p')
    ∧ get_impl_at a p' = (Ok impl, p')
    ∧ compute_factories_ p' !! runtime_ f = Some c.
Proof.
  intros Hf.
  exists {| factories_ := factories_ p;
            objects := <[a := {| runtime_ := runtime_ f; impl_ := impl |}]>
                         (objects p);
            compute_factories_ := <[runtime_ f := c]> (compute_factories_ p);
            world := world p |}.
  split_and!.
  - unfold mbind, M_bind. rewrite (set_impl_at_found _ _ f); [|done].
    erewrite set_compute_impl_found; [|cbn; apply lookup_insert_eq]. done.
  - unfold mbind, M_bind. rewrite (set_compute_impl_found _ f); [|done].
    by rewrite (set_impl_at_found _ _ f).
  - unfold get_impl_at, deref. run. by rewrite lookup_insert_eq.
  - cbn. apply lookup_insert_eq.
Qed.

(** X3. [set_impl] by the overload taking the holder by reference, given
    the holder of another factory, moves the implementation: afterwards the
    factory called holds what the other held, the other's holder is null,
    both keep their runtime names, and every third factory, the manager's
    map, the compute registry and the world are as before.  Given its own
    holder, a factory is left as it was. *)
Theorem set_impl_ref_moves_implementation a b f g p :
  objects p !! a = Some f → objects p !! b = Some g →
  ∃ p', set_impl_ref_at a b p = (Ok a, p')
    ∧ (a = b → p' = p)
    ∧ (a ≠ b →
         objects p' !! a = Some {| runtime_ := runtime_ f; impl_ := get_impl g |}
         ∧ objects p' !! b = Some {| runtime_ := runtime_ g; impl_ := nullptr |}
         ∧ get_impl_at a p' = (Ok (get_impl g), p')
         ∧ get_impl_at b p' = (Ok nullptr, p'))
    ∧ (∀ c, c ≠ a → c ≠ b → objects p' !! c = objects p !! c)
    ∧ factories_ p' = factories_ p
    ∧ compute_factories_ p' = compute_factories_ p
    ∧ world p' = world p.
Proof.
  intros Hf Hg. eexists. split; [by apply (set_impl_ref_at_found a b f g)|].
  cbn. split_and!; try done.
  - intros <-. assert (g = f) as -> by congruence.
    rewrite insert_insert_eq, insert_id; [by destruct p|by destruct f].
  - intros Hab.
    assert (objects
              {| factories_ := factories_ p;
                 objects :=
                   <[a := {| runtime_ := runtime_ f; impl_ := get_impl g |}]>
                     (<[b := {| runtime_ := runtime_ g; impl_ := nullptr |}]>
                        (objects p));
                 compute_factories_ := compute_factories_ p;
                 world := world p |} !! b
            = Some {| runtime_ := runtime_ g; impl_ := nullptr |}) as Hb.
    { cbn. rewrite lookup_insert_ne; [|done]. apply lookup_insert_eq. }
    split_and!.
    + apply lookup_insert_eq.
    + exact Hb.
    + unfold get_impl_at, deref. run. by rewrite lookup_insert_eq.
    + unfold get_impl_at, deref. run. cbn in Hb. by rewrite Hb.
  - intros c Hca Hcb. by rewrite !lookup_insert_ne.
Qed.

End factory_properties.

(** ** The import entry points *)
Section import_properties.
Import Onnx.

Context {XLayer : Type}.

Local Abbreviation Func := (@OpaqueFunc XLayer).
Local Abbreviation Proc := (@Process XLayer).

Implicit Types (p : Proc) (f : Func) (e : entry_point).

(** X4. An entry point fails in two ways only.  Either its key is not
    registered, and the error is the [runtime_error] saying so, with no
    graph made; or the registered callable itself threw that error when it
    was invoked on the new graph and the source.  In particular the [Get]
    that follows a successful [Exists] never fails with [NotFound]. *)
Theorem import_onnx_model_failures e p err p' :
  import e p = (Err err, p') →
  (registry p !! key_of e = None
   ∧ err = runtime_error (not_registered (key_of e))
   ∧ graphs p' = graphs p)
  ∨ (∃ f, registry p !! key_of e = Some f
       ∧ func_ f [of_XGraph (fresh (dom (graphs p))); of_string (source_of e)]
           (<[fresh (dom (graphs p)) := new_XGraph "empty_onnx_model"]> (graphs p))
         = (Err err, graphs p')).
Proof.
  intros Hrun.
  destruct (registry p !! key_of e) as [f|] eqn:Hkey.
  - right. exists f. split; [done|].
    rewrite (import_registered e f p Hkey) in Hrun. cbn zeta in Hrun.
    destruct (func_ f _ _) as [[[]|err'] g]; cbn in Hrun; [done|].
    by injection Hrun as -> <-.
  - left. rewrite import_unregistered in Hrun; [|done].
    by injection Hrun as <- <-.
Qed.

(** X5. An import leaves the graphs that were there before it as they
    were, whether it succeeds or fails, provided the registered callable
    writes no graph but the one it is handed: the entry point itself only
    adds the new graph. *)
Theorem import_onnx_model_keeps_graphs e f p a g :
  registry p !! key_of e = Some f →
  (∀ xg source store b, b ≠ xg →
     (func_ f [of_XGraph xg; of_string source] store).2 !! b = store !! b) →
  graphs p !! a = Some g →
  graphs (import e p).2 !! a = Some g.
Proof.
  intros Hkey Hframe Ha.
  rewrite (import_registered e f p Hkey). cbn.
  assert (a ≠ fresh (dom (graphs p))) as Hne.
  { intros ->. apply (is_fresh (dom (graphs p))), elem_of_dom. by eexists. }
  rewrite Hframe; [|done]. by rewrite lookup_insert_ne.
Qed.

(** X6. An entry point consults the registry under its own key only: in two
    processes with the same graphs whose registries agree on that key —
    whatever else is or is not registered, the other entry point's key
    included — it has the same outcome and leaves the same graphs. *)
Theorem import_onnx_model_own_key_only e p q :
  registry p !! key_of e = registry q !! key_of e →
  graphs p = graphs q →
  (import e p).1 = (import e q).1
  ∧ graphs (import e p).2 = graphs (import e q).2.
Proof.
  intros Hkey Hgraphs.
  destruct (registry q !! key_of e) as [f|] eqn:Hq.
  - rewrite (import_registered e f p Hkey), (import_registered e f q Hq).
    cbn. by rewrite Hgraphs.
  - rewrite (import_unregistered e p Hkey), (import_unregistered e q Hq).
    done.
Qed.

End import_properties.

(** The factory of "cpu" gets a new stub and a compute implementation. *)
Lemma set_impl_set_compute_impl_commute_witness :
  let p := Scenario.cpu_process in
  let B := Scenario.recording_stub "B" in
  (a' ← Runtime.set_impl_at Runtime.by_pointer 1%positive (Some B);
   Runtime.set_compute_impl a' (Some "cpu-compute")) p
  = (a' ← Runtime.set_compute_impl 1%positive (Some "cpu-compute");
     Runtime.set_impl_at Runtime.by_pointer a' (Some B)) p.
Proof.
  intros p B.
  destruct (set_impl_set_compute_impl_commute Runtime.by_pointer 1%positive
              {| Runtime.runtime_ := "cpu";
                 Runtime.impl_ := Some (Scenario.recording_stub "cpu-stub") |}
              (Some B) (Some "cpu-compute") p eq_refl)
    as (p' & H1 & H2 & _).
  rewrite H1. symmetry. exact H2.
Defined.

(** With "cpu" and "gpu" registered, the factory of "cpu" is given the
    holder of the factory of "gpu": it then holds the stub of "gpu", and
    the factory of "gpu" holds nothing. *)
Lemma set_impl_ref_moves_implementation_witness :
  let p := (Scenario.register "gpu" (Scenario.recording_stub "gpu-stub")
              Scenario.cpu_process).2 in
  let p' := (Runtime.set_impl_ref_at 1%positive 2%positive p).2 in
  (1 ≠ 2)%positive
  ∧ Runtime.get_impl_at 1%positive p'
    = (Ok (Some (Scenario.recording_stub "gpu-stub")), p')
  ∧ Runtime.get_impl_at 2%positive p' = (Ok None, p').
Proof.
  intros p p'.
  assert (1 ≠ 2)%positive as Hne by discriminate.
  split; [exact Hne|].
  destruct (set_impl_ref_moves_implementation 1%positive 2%positive
              {| Runtime.runtime_ := "cpu";
                 Runtime.impl_ := Some (Scenario.recording_stub "cpu-stub") |}
              {| Runtime.runtime_ := "gpu";
                 Runtime.impl_ := Some (Scenario.recording_stub "gpu-stub") |}
              p eq_refl eq_refl)
    as (q & Hrun & _ & Hmoved & _).
  assert (q = p') as -> by (unfold p'; by rewrite Hrun).
  destruct (Hmoved Hne) as (_ & _ & Ha & Hb).
  split; [exact Ha|exact Hb].
Defined.

(** An importer that throws: the failure of the import is the importer's. *)
Lemma import_onnx_model_failures_witness :
  let p := Scenario.with_importer "pyxir.onnx.from_onnx"
             Scenario.failing_importer in
  (Onnx.import (Onnx.from_file "model.onnx") p).1
    = Err (InvocationError "cannot parse model")
  ∧ ∃ f, Onnx.registry p !! "pyxir.onnx.from_onnx" = Some f
      ∧ (Onnx.func_ f [Onnx.of_XGraph 1%positive; Onnx.of_string "model.onnx"]
           {[1%positive := Onnx.new_XGraph "empty_onnx_model"]}).1
        = Err (InvocationError "cannot parse model").
Proof.
  intros p. split; [reflexivity|].
  destruct (import_onnx_model_failures (Onnx.from_file "model.onnx") p
              (InvocationError "cannot parse model")
              (Onnx.import (Onnx.from_file "model.onnx") p).2 eq_refl)
    as [(Hkey & _)|(f & Hkey & Hcall)].
  - discriminate Hkey.
  - exists f. split; [exact Hkey|]. injection Hkey as <-. reflexivity.
Defined.

(** A second import leaves the graph of the first as the importer made
    it. *)
Lemma import_onnx_model_keeps_graphs_witness :
  let p := (Onnx.import (Onnx.from_file "first.onnx")
              (Scenario.with_importer "pyxir.onnx.from_onnx"
                 Scenario.importer)).2 in
  Onnx.graphs (Onnx.import (Onnx.from_file "second.onnx") p).2 !! 1%positive
  = Some {| Onnx.name := "first.onnx"; Onnx.layers := ["conv1"] |}.
Proof.
  intros p.
  apply (import_onnx_model_keeps_graphs (Onnx.from_file "second.onnx")
           Scenario.importer p).
  - reflexivity.
  - intros xg source store b Hb. cbn. by apply lookup_insert_ne.
  - reflexivity.
Defined.

(** Registering the byte-stream importer does nothing for the file-path
    entry point. *)
Lemma import_onnx_model_own_key_only_witness :
  let p := Scenario.with_importer "pyxir.onnx.from_onnx_bytes" Scenario.importer in
  (Onnx.import (Onnx.from_file "model.onnx") p).1
  = Err (runtime_error (Onnx.not_registered "pyxir.onnx.from_onnx")).
Proof.
  intros p.
  destruct (import_onnx_model_own_key_only (Onnx.from_file "model.onnx") p
              Scenario.without_importer eq_refl eq_refl) as [Hresult _].
  rewrite Hresult. reflexivity.
Defined.
